(** * metrics-server: the start-up orchestration of [cmd/metrics-server/app/start.go]

    The file embeds [MetricsServerOptions], [NewMetricsServerOptions],
    [MetricsServerOptions.Config] and [MetricsServerOptions.Run].
    [NewCommandStartMetricsServer], which binds the command-line flags to
    the options and calls [Run], is not embedded.

    The code is a sequence of calls into libraries (k8s.io/apiserver,
    k8s.io/client-go) and into sibling packages (pkg/apiserver, pkg/manager,
    pkg/provider, pkg/sources).  Those are parameters of the development
    (classes [Types] and [Collaborators]); what is embedded is the
    orchestration itself: which call is made, with which arguments, in which
    order, what happens to the [err] variable, and what is returned.

    Effects are explicit.  A computation reads and writes the heap that holds
    the four option structures a [MetricsServerOptions] points to, and emits
    the list of library calls it makes, in call order, each with its
    arguments and the error it returned. *)

From Stdlib Require Import ZArith.
From stdpp Require Import base strings list gmap.

Local Open Scope Z_scope.
Local Open Scope string_scope.

(** ** The libraries the code is written against *)

(** Heap addresses: a Go pointer to an option structure. *)
Abbreviation loc := positive.

(** The types of the libraries.  Their values are opaque to start.go. *)
Class Types := {
  (* k8s.io/apiserver/pkg/server/options *)
  SecureServingOptions : Type;
  DelegatingAuthenticationOptions : Type;
  DelegatingAuthorizationOptions : Type;
  FeatureOptions : Type;
  (* net *)
  IP : Type;
  (* error values made by a library *)
  LibError : Type;
  (* k8s.io/apiserver/pkg/server *)
  CodecFactory : Type;
  SecureServingInfo : Type;
  AuthenticationInfo : Type;
  AuthorizationInfo : Type;
  swagger_Config : Type;
  openapi_Config : Type;
  OtherConfigFields : Type;
  GenericAPIServer : Type;
  preparedGenericAPIServer : Type;
  (* k8s.io/client-go *)
  rest_Config : Type;
  Clientset : Type;
  SharedInformerFactory : Type;
  NodeLister : Type;
  (* pkg/sources, pkg/sources/summary, pkg/provider, pkg/manager, pkg/apiserver *)
  KubeletClientConfig : Type;
  KubeletInterface : Type;
  MetricSourceProvider : Type;
  MetricSource : Type;
  MetricSink : Type;
  MetricsProvider : Type;
  Manager : Type;
  CompletedConfig : Type;
  MetricsServer : Type;
  (* <-chan struct{} *)
  StopCh : Type;
}.

(** Go's [error] values as start.go sees them: either the error a library
    returned, or one built here by [fmt.Errorf(prefix + "%v", cause)]. *)
Inductive error `{Types} : Type :=
| LibErr (e : LibError)
| Errorf (prefix : string) (cause : error).

Module genericapiserver.
(** [genericapiserver.Config]: the fields start.go reads or writes, and the
    rest of the structure in one piece. *)
Record Config `{Types} : Type := mkConfig {
  SecureServing : SecureServingInfo;
  Authentication : AuthenticationInfo;
  Authorization : AuthorizationInfo;
  SwaggerConfig : swagger_Config;
  EnableMetrics : bool;
  Other : OtherConfigFields;
}.

(** Field assignments [c.F = v]. *)
Definition set_SecureServing `{Types} (v : SecureServingInfo) (c : Config) : Config :=
  {| SecureServing := v;
     Authentication := Authentication c;
     Authorization := Authorization c;
     SwaggerConfig := SwaggerConfig c;
     EnableMetrics := EnableMetrics c;
     Other := Other c |}.

Definition set_Authentication `{Types} (v : AuthenticationInfo) (c : Config) : Config :=
  {| SecureServing := SecureServing c;
     Authentication := v;
     Authorization := Authorization c;
     SwaggerConfig := SwaggerConfig c;
     EnableMetrics := EnableMetrics c;
     Other := Other c |}.

Definition set_Authorization `{Types} (v : AuthorizationInfo) (c : Config) : Config :=
  {| SecureServing := SecureServing c;
     Authentication := Authentication c;
     Authorization := v;
     SwaggerConfig := SwaggerConfig c;
     EnableMetrics := EnableMetrics c;
     Other := Other c |}.

Definition set_SwaggerConfig `{Types} (v : swagger_Config) (c : Config) : Config :=
  {| SecureServing := SecureServing c;
     Authentication := Authentication c;
     Authorization := Authorization c;
     SwaggerConfig := v;
     EnableMetrics := EnableMetrics c;
     Other := Other c |}.

Definition set_EnableMetrics `{Types} (v : bool) (c : Config) : Config :=
  {| SecureServing := SecureServing c;
     Authentication := Authentication c;
     Authorization := Authorization c;
     SwaggerConfig := SwaggerConfig c;
     EnableMetrics := v;
     Other := Other c |}.
End genericapiserver.

Module apiserver.
(** [apiserver.ProviderConfig]: two interface values, nil until injected. *)
Record ProviderConfig `{Types} : Type := mkProviderConfig {
  Node : option MetricsProvider;
  Pod : option MetricsProvider;
}.

(** [apiserver.Config].  Its field [ProviderConfig] is [ProviderConfig_]
    here, the name being taken by the type. *)
Record Config `{Types} : Type := mkConfig {
  GenericConfig : genericapiserver.Config;
  ProviderConfig_ : ProviderConfig;
}.

(** Field assignments [c.GenericConfig.EnableMetrics = v],
    [c.ProviderConfig.Node = v] and [c.ProviderConfig.Pod = v]. *)
Definition set_EnableMetrics `{Types} (v : bool) (c : Config) : Config :=
  {| GenericConfig := genericapiserver.set_EnableMetrics v (GenericConfig c);
     ProviderConfig_ := ProviderConfig_ c |}.

Definition set_Node `{Types} (v : option MetricsProvider) (c : Config) : Config :=
  {| GenericConfig := GenericConfig c;
     ProviderConfig_ := {| Node := v; Pod := Pod (ProviderConfig_ c) |} |}.

Definition set_Pod `{Types} (v : option MetricsProvider) (c : Config) : Config :=
  {| GenericConfig := GenericConfig c;
     ProviderConfig_ := {| Node := Node (ProviderConfig_ c); Pod := v |} |}.
End apiserver.

Module clientcmd.
Record ClientConfigLoadingRules : Type := mkRules { ExplicitPath : string }.

(** [&clientcmd.ConfigOverrides{}] *)
Inductive ConfigOverrides : Type := EmptyOverrides.

(** [clientcmd.NewNonInteractiveDeferredLoadingClientConfig(rules, overrides)] *)
Inductive DeferredLoadingClientConfig : Type :=
| NewNonInteractiveDeferredLoadingClientConfig
    (loadingRules : ClientConfigLoadingRules) (overrides : ConfigOverrides).
End clientcmd.

Module healthz.
(** The method value [mgr.CheckHealth]. *)
Inductive CheckFunc `{Types} : Type := Manager_CheckHealth (mgr : Manager).

Inductive HealthzChecker `{Types} : Type :=
| NamedCheck (name : string) (check : CheckFunc).
End healthz.

(** A method with a pointer receiver, as its caller sees it: on a structure
    of type [T] it leaves a structure and returns an [A]; on a nil receiver
    it returns an [A]. *)
Record Method (T A : Type) : Type := mkMethod {
  body : T → T * A;
  body_nil : A;
}.
Arguments mkMethod {T A} _ _.
Arguments body {T A} _ _.
Arguments body_nil {T A} _.

(** [p.m(...)] on the cells of one type: the cell [p] points to is replaced
    by what the method leaves; with no cell at [p] the receiver is nil. *)
Definition invoke {T A : Type} (m : Method T A) (p : loc) (cells : gmap loc T)
    : A * gmap loc T :=
  match cells !! p with
  | Some s => let '(s', a) := body m s in (a, <[p := s']> cells)
  | None => (body_nil m, cells)
  end.

(** What a method returns, and what it leaves, when called on [this]
    ([None]: a nil receiver). *)
Definition result_on {T A : Type} (m : Method T A) (this : option T) : A :=
  match this with
  | Some s => (body m s).2
  | None => body_nil m
  end.

Definition left_by {T A : Type} (m : Method T A) (this : option T) : option T :=
  match this with
  | Some s => Some (body m s).1
  | None => None
  end.

(** The functions and methods start.go calls.  A function that returns
    [(T, error)] in Go returns a pair here; the code decides on the error. *)
Class Collaborators `{Types} := {
  (* k8s.io/apiserver/pkg/server/options: constructors *)
  NewSecureServingOptions : SecureServingOptions;
  NewDelegatingAuthenticationOptions : DelegatingAuthenticationOptions;
  NewDelegatingAuthorizationOptions : DelegatingAuthorizationOptions;
  NewFeatureOptions : FeatureOptions;
  (* net.ParseIP *)
  ParseIP : string -> IP;
  (* the methods of the option structures, given their arguments; the
     ApplyTo methods are handed the part of the server configuration they
     fill in and return it filled in *)
  MaybeDefaultWithSelfSignedCerts :
    string → list string → list IP →
    Method SecureServingOptions (option LibError);
  SecureServing_ApplyTo :
    SecureServingInfo →
    Method SecureServingOptions (SecureServingInfo * option LibError);
  Authentication_ApplyTo :
    AuthenticationInfo → SecureServingInfo → option openapi_Config →
    Method DelegatingAuthenticationOptions
      (AuthenticationInfo * SecureServingInfo * option LibError);
  Authorization_ApplyTo :
    AuthorizationInfo →
    Method DelegatingAuthorizationOptions (AuthorizationInfo * option LibError);
  (* k8s.io/apiserver/pkg/server *)
  Codecs : CodecFactory;
  NewConfig : CodecFactory -> genericapiserver.Config;
  DefaultSwaggerConfig : swagger_Config;
  (* k8s.io/client-go *)
  ClientConfig : clientcmd.DeferredLoadingClientConfig -> rest_Config * option LibError;
  InClusterConfig : rest_Config * option LibError;
  NewForConfig : rest_Config -> Clientset * option LibError;
  NewSharedInformerFactory : Clientset -> Z -> SharedInformerFactory;
  Nodes_Lister : SharedInformerFactory -> NodeLister;
  (* pkg/sources/summary, pkg/sources *)
  GetKubeletConfig : rest_Config -> Z -> KubeletClientConfig;
  KubeletClientFor : KubeletClientConfig -> KubeletInterface * option LibError;
  NewSummaryProvider : NodeLister -> KubeletInterface -> MetricSourceProvider;
  DefaultMetricsScrapeTimeout : Z;
  NewSourceManager : MetricSourceProvider -> Z -> MetricSource * option LibError;
  (* pkg/provider, pkg/manager *)
  NewSinkProvider : MetricSink * MetricsProvider;
  NewManager : MetricSource -> MetricSink -> Z -> Manager;
  (* pkg/apiserver *)
  Complete : apiserver.Config -> SharedInformerFactory -> CompletedConfig;
  New : CompletedConfig -> MetricsServer * option LibError;
  AddHealthzChecks : MetricsServer -> list healthz.HealthzChecker -> MetricsServer;
  MetricsServer_GenericAPIServer : MetricsServer -> GenericAPIServer;
  PrepareRun : GenericAPIServer -> preparedGenericAPIServer;
  prepared_Run : preparedGenericAPIServer -> StopCh -> option LibError;
}.

(** ** Heap, events, and the monad of the embedding *)

Section Effects.
Context `{Collaborators}.

(** The option structures live on the heap, one map per pointee type. *)
Record Heap : Type := mkHeap {
  hSecureServing : gmap loc SecureServingOptions;
  hAuthentication : gmap loc DelegatingAuthenticationOptions;
  hAuthorization : gmap loc DelegatingAuthorizationOptions;
  hFeatures : gmap loc FeatureOptions;
}.

(** One event per library call: the receiver or arguments as passed, and
    the error the call returned where it returns one. *)
Inductive Event : Type :=
| EvMaybeDefaultWithSelfSignedCerts
    (recv : loc) (this : option SecureServingOptions)
    (publicAddress : string) (alternateDNS : list string) (alternateIPs : list IP)
    (err : option LibError)
| EvNewConfig (codecs : CodecFactory)
| EvSecureServingApplyTo
    (recv : loc) (this : option SecureServingOptions) (err : option LibError)
| EvAuthenticationApplyTo
    (recv : loc) (servingInfo : SecureServingInfo) (err : option LibError)
| EvAuthorizationApplyTo (recv : loc) (err : option LibError)
| EvDefaultSwaggerConfig
| EvClientConfig (loader : clientcmd.DeferredLoadingClientConfig) (err : option LibError)
| EvInClusterConfig (err : option LibError)
| EvNewForConfig (c : rest_Config) (err : option LibError)
| EvNewSharedInformerFactory (client : Clientset) (defaultResync : Z)
| EvGetKubeletConfig (c : rest_Config) (port : Z)
| EvKubeletClientFor (c : KubeletClientConfig) (err : option LibError)
| EvNodesLister (f : SharedInformerFactory)
| EvNewSummaryProvider (l : NodeLister) (k : KubeletInterface)
| EvNewSourceManager (p : MetricSourceProvider) (timeout : Z) (err : option LibError)
| EvNewSinkProvider
| EvNewManager (src : MetricSource) (sink : MetricSink) (resolution : Z)
| EvComplete (cfg : apiserver.Config) (informers : SharedInformerFactory)
| EvNew (c : CompletedConfig) (err : option LibError)
| EvAddHealthzChecks (s : MetricsServer) (checks : list healthz.HealthzChecker)
| EvRunUntil (mgr : Manager) (stopCh : StopCh)
| EvPrepareRun (s : GenericAPIServer)
| EvRun (s : preparedGenericAPIServer) (stopCh : StopCh) (err : option LibError).

(** A computation: from a heap to a result, the heap after, and the calls
    made, oldest first. *)
Definition M (A : Type) : Type := Heap -> A * Heap * list Event.

#[export] Instance M_ret : MRet M := fun A a h => (a, h, []).

#[export] Instance M_bind : MBind M := fun A B k m h =>
  let '(a, h1, t1) := m h in
  let '(b, h2, t2) := k a h1 in
  (b, h2, (t1 ++ t2)%list).

Definition emit (e : Event) : M unit := fun h => (tt, h, [e]).

(** The three components of what a computation leaves. *)
Definition result {A : Type} (r : A * Heap * list Event) : A := r.1.1.

Definition heap_after {A : Type} (r : A * Heap * list Event) : Heap := r.1.2.

Definition trace {A : Type} (r : A * Heap * list Event) : list Event := r.2.

(** The error a call returned; calls that return none never fail. *)
Definition failure (ev : Event) : option LibError :=
  match ev with
  | EvMaybeDefaultWithSelfSignedCerts _ _ _ _ _ err
  | EvSecureServingApplyTo _ _ err
  | EvAuthenticationApplyTo _ _ err
  | EvAuthorizationApplyTo _ err
  | EvClientConfig _ err
  | EvInClusterConfig err
  | EvNewForConfig _ err
  | EvKubeletClientFor _ err
  | EvNewSourceManager _ _ err
  | EvNew _ err
  | EvRun _ _ err => err
  | _ => None
  end.

(** The name of the function or method an event is a call of. *)
Definition call_name (ev : Event) : string :=
  match ev with
  | EvMaybeDefaultWithSelfSignedCerts _ _ _ _ _ _ =>
      "SecureServingOptions.MaybeDefaultWithSelfSignedCerts"
  | EvNewConfig _ => "genericapiserver.NewConfig"
  | EvSecureServingApplyTo _ _ _ => "SecureServingOptions.ApplyTo"
  | EvAuthenticationApplyTo _ _ _ => "DelegatingAuthenticationOptions.ApplyTo"
  | EvAuthorizationApplyTo _ _ => "DelegatingAuthorizationOptions.ApplyTo"
  | EvDefaultSwaggerConfig => "genericapiserver.DefaultSwaggerConfig"
  | EvClientConfig _ _ => "clientcmd.ClientConfig.ClientConfig"
  | EvInClusterConfig _ => "rest.InClusterConfig"
  | EvNewForConfig _ _ => "kubernetes.NewForConfig"
  | EvNewSharedInformerFactory _ _ => "informers.NewSharedInformerFactory"
  | EvGetKubeletConfig _ _ => "summary.GetKubeletConfig"
  | EvKubeletClientFor _ _ => "summary.KubeletClientFor"
  | EvNodesLister _ => "NodeInformer.Lister"
  | EvNewSummaryProvider _ _ => "summary.NewSummaryProvider"
  | EvNewSourceManager _ _ _ => "sources.NewSourceManager"
  | EvNewSinkProvider => "provider.NewSinkProvider"
  | EvNewManager _ _ _ => "manager.NewManager"
  | EvComplete _ _ => "apiserver.Config.Complete"
  | EvNew _ _ => "apiserver.CompletedConfig.New"
  | EvAddHealthzChecks _ _ => "GenericAPIServer.AddHealthzChecks"
  | EvRunUntil _ _ => "manager.Manager.RunUntil"
  | EvPrepareRun _ => "GenericAPIServer.PrepareRun"
  | EvRun _ _ _ => "preparedGenericAPIServer.Run"
  end.

(** The calls that start a long-running part of the service: the
    manager's loop, and the server's preparation and accept loop. *)
Definition starts_service (ev : Event) : bool :=
  match ev with
  | EvRunUntil _ _ | EvPrepareRun _ | EvRun _ _ _ => true
  | _ => false
  end.

(** [earlier t a b]: the call [a] is in [t], and the call [b] is in [t]
    after it. *)
Inductive earlier : list Event → Event → Event → Prop :=
| earlier_here (a b : Event) (t : list Event) :
    b ∈ t → earlier (a :: t) a b
| earlier_later (c a b : Event) (t : list Event) :
    earlier t a b → earlier (c :: t) a b.

(** The message the code puts in front of a failed call's error before it
    returns it, for the calls whose error it wraps. *)
Definition stage_prefix (ev : Event) : option string :=
  match ev with
  | EvMaybeDefaultWithSelfSignedCerts _ _ _ _ _ _ =>
      Some "error creating self-signed certificates: "
  | EvClientConfig _ _ | EvInClusterConfig _ =>
      Some "unable to construct lister client config: "
  | EvNewForConfig _ _ => Some "unable to construct lister client: "
  | EvKubeletClientFor _ _ =>
      Some "unable to construct a client to connect to the kubelets: "
  | EvNewSourceManager _ _ _ => Some "unable to initialize source manager: "
  | _ => None
  end.

(** The error handed to the caller when the call [ev] failed with [x]. *)
Definition returned_error (ev : Event) (x : LibError) : error :=
  match stage_prefix ev with
  | Some p => Errorf p (LibErr x)
  | None => LibErr x
  end.

(** The calls of the three construction stages: configuration assembly,
    cluster-client construction, pipeline wiring. *)
Definition construction_stage (ev : Event) : bool :=
  match ev with
  | EvMaybeDefaultWithSelfSignedCerts _ _ _ _ _ _
  | EvSecureServingApplyTo _ _ _
  | EvAuthenticationApplyTo _ _ _
  | EvAuthorizationApplyTo _ _
  | EvClientConfig _ _
  | EvInClusterConfig _
  | EvNewForConfig _ _
  | EvKubeletClientFor _ _
  | EvNewSourceManager _ _ _ => true
  | _ => false
  end.

End Effects.

(** ** The calls, as computations

    Each wrapper makes one library call, records it, and hands back what Go
    code gets: the results, with the library's error as an [error] value. *)

Section Calls.
Context `{Collaborators}.

Definition libErr (e : option LibError) : option error :=
  match e with Some x => Some (LibErr x) | None => None end.

Definition call_MaybeDefaultWithSelfSignedCerts
    (p : loc) (addr : string) (dns : list string) (ips : list IP) : M (option error) :=
  fun h =>
    let this := hSecureServing h !! p in
    let '(err, cells) :=
      invoke (MaybeDefaultWithSelfSignedCerts addr dns ips) p (hSecureServing h) in
    (libErr err,
     mkHeap cells (hAuthentication h) (hAuthorization h) (hFeatures h),
     [EvMaybeDefaultWithSelfSignedCerts p this addr dns ips err]).

Definition call_NewConfig (codecs : CodecFactory) : M genericapiserver.Config :=
  fun h => (NewConfig codecs, h, [EvNewConfig codecs]).

Definition call_SecureServing_ApplyTo
    (p : loc) (slot : SecureServingInfo) : M (SecureServingInfo * option error) :=
  fun h =>
    let this := hSecureServing h !! p in
    let '((slot', err), cells) :=
      invoke (SecureServing_ApplyTo slot) p (hSecureServing h) in
    ((slot', libErr err),
     mkHeap cells (hAuthentication h) (hAuthorization h) (hFeatures h),
     [EvSecureServingApplyTo p this err]).

Definition call_Authentication_ApplyTo
    (p : loc) (slot : AuthenticationInfo) (servingInfo : SecureServingInfo)
    (openAPI : option openapi_Config)
    : M (AuthenticationInfo * SecureServingInfo * option error) :=
  fun h =>
    let '((slot', servingInfo', err), cells) :=
      invoke (Authentication_ApplyTo slot servingInfo openAPI) p (hAuthentication h) in
    ((slot', servingInfo', libErr err),
     mkHeap (hSecureServing h) cells (hAuthorization h) (hFeatures h),
     [EvAuthenticationApplyTo p servingInfo err]).

Definition call_Authorization_ApplyTo
    (p : loc) (slot : AuthorizationInfo) : M (AuthorizationInfo * option error) :=
  fun h =>
    let '((slot', err), cells) :=
      invoke (Authorization_ApplyTo slot) p (hAuthorization h) in
    ((slot', libErr err),
     mkHeap (hSecureServing h) (hAuthentication h) cells (hFeatures h),
     [EvAuthorizationApplyTo p err]).

Definition call_DefaultSwaggerConfig : M swagger_Config :=
  fun h => (DefaultSwaggerConfig, h, [EvDefaultSwaggerConfig]).

Definition call_ClientConfig
    (loader : clientcmd.DeferredLoadingClientConfig) : M (rest_Config * option error) :=
  fun h =>
    let '(c, err) := ClientConfig loader in
    ((c, libErr err), h, [EvClientConfig loader err]).

Definition call_InClusterConfig : M (rest_Config * option error) :=
  fun h =>
    let '(c, err) := InClusterConfig in
    ((c, libErr err), h, [EvInClusterConfig err]).

Definition call_NewForConfig (c : rest_Config) : M (Clientset * option error) :=
  fun h =>
    let '(k, err) := NewForConfig c in
    ((k, libErr err), h, [EvNewForConfig c err]).

Definition call_NewSharedInformerFactory
    (client : Clientset) (defaultResync : Z) : M SharedInformerFactory :=
  fun h => (NewSharedInformerFactory client defaultResync, h,
            [EvNewSharedInformerFactory client defaultResync]).

Definition call_GetKubeletConfig (c : rest_Config) (port : Z) : M KubeletClientConfig :=
  fun h => (GetKubeletConfig c port, h, [EvGetKubeletConfig c port]).

Definition call_KubeletClientFor
    (c : KubeletClientConfig) : M (KubeletInterface * option error) :=
  fun h =>
    let '(k, err) := KubeletClientFor c in
    ((k, libErr err), h, [EvKubeletClientFor c err]).

Definition call_Nodes_Lister (f : SharedInformerFactory) : M NodeLister :=
  fun h => (Nodes_Lister f, h, [EvNodesLister f]).

Definition call_NewSummaryProvider
    (l : NodeLister) (k : KubeletInterface) : M MetricSourceProvider :=
  fun h => (NewSummaryProvider l k, h, [EvNewSummaryProvider l k]).

Definition call_NewSourceManager
    (p : MetricSourceProvider) (timeout : Z) : M (MetricSource * option error) :=
  fun h =>
    let '(m, err) := NewSourceManager p timeout in
    ((m, libErr err), h, [EvNewSourceManager p timeout err]).

Definition call_NewSinkProvider : M (MetricSink * MetricsProvider) :=
  fun h => (NewSinkProvider, h, [EvNewSinkProvider]).

Definition call_NewManager
    (src : MetricSource) (sink : MetricSink) (resolution : Z) : M Manager :=
  fun h => (NewManager src sink resolution, h, [EvNewManager src sink resolution]).

Definition call_Complete
    (cfg : apiserver.Config) (informers : SharedInformerFactory) : M CompletedConfig :=
  fun h => (Complete cfg informers, h, [EvComplete cfg informers]).

Definition call_New (c : CompletedConfig) : M (MetricsServer * option error) :=
  fun h =>
    let '(s, err) := New c in
    ((s, libErr err), h, [EvNew c err]).

Definition call_AddHealthzChecks
    (s : MetricsServer) (checks : list healthz.HealthzChecker) : M MetricsServer :=
  fun h => (AddHealthzChecks s checks, h, [EvAddHealthzChecks s checks]).

Definition call_RunUntil (mgr : Manager) (stopCh : StopCh) : M unit :=
  emit (EvRunUntil mgr stopCh).

Definition call_PrepareRun (s : GenericAPIServer) : M preparedGenericAPIServer :=
  fun h => (PrepareRun s, h, [EvPrepareRun s]).

Definition call_Run (s : preparedGenericAPIServer) (stopCh : StopCh) : M (option error) :=
  fun h =>
    let err := prepared_Run s stopCh in
    (libErr err, h, [EvRun s stopCh err]).

End Calls.

(** ** start.go *)

Module app.
Section App.
Context `{Collaborators}.

(** [time.Second], in nanoseconds. *)
Definition time_Second : Z := 1000000000.

Record MetricsServerOptions : Type := mkOptions {
  SecureServing : loc;
  Authentication : loc;
  Authorization : loc;
  Features : loc;
  Kubeconfig : string;
  DisableAuthForTesting : bool;
  MetricResolution : Z;
  KubeletPort : Z;
  InsecureKubelet : bool;
}.

(** [&T{...}]: a new cell, at an address the map does not hold yet. *)
Definition alloc {A : Type} (v : A) (m : gmap loc A) : loc * gmap loc A :=
  let p := fresh (dom m) in (p, <[p := v]> m).

Definition NewMetricsServerOptions : M MetricsServerOptions := fun h =>
  let '(ss, hss) := alloc NewSecureServingOptions (hSecureServing h) in
  let '(an, han) := alloc NewDelegatingAuthenticationOptions (hAuthentication h) in
  let '(az, haz) := alloc NewDelegatingAuthorizationOptions (hAuthorization h) in
  let '(ft, hft) := alloc NewFeatureOptions (hFeatures h) in
  ({| SecureServing := ss;
      Authentication := an;
      Authorization := az;
      Features := ft;
      Kubeconfig := "";
      DisableAuthForTesting := false;
      MetricResolution := 60 * time_Second;
      KubeletPort := 10250;
      InsecureKubelet := false |},
   mkHeap hss han haz hft, []).

(** [func (o MetricsServerOptions) Config()], which returns a pointer to an
    [apiserver.Config] and an [error].  [None] in the first component is the
    nil pointer. *)
Definition Config (o : MetricsServerOptions) : M (option apiserver.Config * option error) :=
  err ← call_MaybeDefaultWithSelfSignedCerts
          (SecureServing o) "localhost" [] [ParseIP "127.0.0.1"];
  match err with
  | Some err => mret (None, Some (Errorf "error creating self-signed certificates: " err))
  | None =>
  serverConfig ← call_NewConfig Codecs;
  '(ss, err) ← call_SecureServing_ApplyTo
                 (SecureServing o) (genericapiserver.SecureServing serverConfig);
  let serverConfig := genericapiserver.set_SecureServing ss serverConfig in
  match err with
  | Some err => mret (None, Some err)
  | None =>
  (* the statements after the [if !o.DisableAuthForTesting] block *)
  let finish (serverConfig : genericapiserver.Config)
      : M (option apiserver.Config * option error) :=
    sw ← call_DefaultSwaggerConfig;
    let serverConfig := genericapiserver.set_SwaggerConfig sw serverConfig in
    mret (Some {| apiserver.GenericConfig := serverConfig;
                  apiserver.ProviderConfig_ :=
                    {| apiserver.Node := None; apiserver.Pod := None |} |},
          None) in
  if negb (DisableAuthForTesting o) then
    '(an, ss, err) ← call_Authentication_ApplyTo
                       (Authentication o)
                       (genericapiserver.Authentication serverConfig)
                       (genericapiserver.SecureServing serverConfig) None;
    let serverConfig :=
      genericapiserver.set_SecureServing ss
        (genericapiserver.set_Authentication an serverConfig) in
    match err with
    | Some err => mret (None, Some err)
    | None =>
    '(az, err) ← call_Authorization_ApplyTo
                   (Authorization o) (genericapiserver.Authorization serverConfig);
    let serverConfig := genericapiserver.set_Authorization az serverConfig in
    match err with
    | Some err => mret (None, Some err)
    | None => finish serverConfig
    end
    end
  else finish serverConfig
  end
  end.

(** What a call of [Run] ends in: it returns its [error] result, or it
    panics on a nil pointer. *)
Inductive Outcome : Type :=
| Returns (err : option error)
| Panics.

(** [func (o MetricsServerOptions) Run(stopCh <-chan struct{}) error].
    The variable [err] is the one Go variable of that name: the checks read
    whatever the last assignment to it left there. *)
Definition Run (o : MetricsServerOptions) (stopCh : StopCh) : M Outcome :=
  (* grab the config for the API server *)
  '(config, err) ← Config o;
  match err with
  | Some e => mret (Returns (Some e))
  | None =>
  match config with
  | None => mret Panics
  | Some config =>
  let config := apiserver.set_EnableMetrics true config in
  (* set up the client config *)
  '(clientConfig, err) ←
    (if (0 <? String.length (Kubeconfig o))%nat then
       let loadingRules := clientcmd.mkRules (Kubeconfig o) in
       let loader :=
         clientcmd.NewNonInteractiveDeferredLoadingClientConfig
           loadingRules clientcmd.EmptyOverrides in
       call_ClientConfig loader
     else call_InClusterConfig);
  match err with
  | Some e => mret (Returns (Some (Errorf "unable to construct lister client config: " e)))
  | None =>
  (* set up the informers *)
  '(kubeClient, err) ← call_NewForConfig clientConfig;
  match err with
  | Some e => mret (Returns (Some (Errorf "unable to construct lister client: " e)))
  | None =>
  informerFactory ← call_NewSharedInformerFactory kubeClient 0;
  (* set up the source manager *)
  kubeletConfig ← call_GetKubeletConfig clientConfig (KubeletPort o);
  '(kubeletClient, err) ← call_KubeletClientFor kubeletConfig;
  match err with
  | Some e =>
      mret (Returns (Some (Errorf "unable to construct a client to connect to the kubelets: " e)))
  | None =>
  lister ← call_Nodes_Lister informerFactory;
  sourceProvider ← call_NewSummaryProvider lister kubeletClient;
  '(sourceManager, err) ← call_NewSourceManager sourceProvider DefaultMetricsScrapeTimeout;
  match err with
  | Some e => mret (Returns (Some (Errorf "unable to initialize source manager: " e)))
  | None =>
  (* set up the in-memory sink and provider *)
  '(metricSink, metricsProvider) ← call_NewSinkProvider;
  (* set up the general manager *)
  mgr ← call_NewManager sourceManager metricSink (MetricResolution o);
  match err with
  | Some e => mret (Returns (Some (Errorf "unable to create main manager: " e)))
  | None =>
  (* inject the providers into the config *)
  let config := apiserver.set_Node (Some metricsProvider) config in
  let config := apiserver.set_Pod (Some metricsProvider) config in
  (* complete the config to get an API server *)
  completed ← call_Complete config informerFactory;
  '(server, err) ← call_New completed;
  match err with
  | Some e => mret (Returns (Some e))
  | None =>
  (* add health checks *)
  server ← call_AddHealthzChecks server
             [healthz.NamedCheck "healthz" (healthz.Manager_CheckHealth mgr)];
  (* run everything *)
  _ ← call_RunUntil mgr stopCh;
  prepared ← call_PrepareRun (MetricsServer_GenericAPIServer server);
  err ← call_Run prepared stopCh;
  mret (Returns err)
  end
  end
  end
  end
  end
  end
  end
  end.

End App.
End app.

(** ** The calls of a start-up, by name *)

Section Plan.
Context `{Collaborators}.

(** The names of the calls [Run] makes when none fails, in order, for the
    options [o]: the two authentication steps are there without
    [DisableAuthForTesting], and the client configuration comes from the
    kubeconfig file or from the cluster. *)
Definition call_plan (o : app.MetricsServerOptions) : list string :=
  ([ "SecureServingOptions.MaybeDefaultWithSelfSignedCerts";
     "genericapiserver.NewConfig";
     "SecureServingOptions.ApplyTo" ]
   ++ (if app.DisableAuthForTesting o then []
       else [ "DelegatingAuthenticationOptions.ApplyTo";
              "DelegatingAuthorizationOptions.ApplyTo" ])
   ++ [ "genericapiserver.DefaultSwaggerConfig";
        if (0 <? String.length (app.Kubeconfig o))%nat
        then "clientcmd.ClientConfig.ClientConfig"
        else "rest.InClusterConfig";
        "kubernetes.NewForConfig";
        "informers.NewSharedInformerFactory";
        "summary.GetKubeletConfig";
        "summary.KubeletClientFor";
        "NodeInformer.Lister";
        "summary.NewSummaryProvider";
        "sources.NewSourceManager";
        "provider.NewSinkProvider";
        "manager.NewManager";
        "apiserver.Config.Complete";
        "apiserver.CompletedConfig.New";
        "GenericAPIServer.AddHealthzChecks";
        "manager.Manager.RunUntil";
        "GenericAPIServer.PrepareRun";
        "preparedGenericAPIServer.Run" ])%list.

(** The options [o] with other feature options and another
    [InsecureKubelet]. *)
Definition with_Features_InsecureKubelet
    (ft : loc) (b : bool) (o : app.MetricsServerOptions) : app.MetricsServerOptions :=
  {| app.SecureServing := app.SecureServing o;
     app.Authentication := app.Authentication o;
     app.Authorization := app.Authorization o;
     app.Features := ft;
     app.Kubeconfig := app.Kubeconfig o;
     app.DisableAuthForTesting := app.DisableAuthForTesting o;
     app.MetricResolution := app.MetricResolution o;
     app.KubeletPort := app.KubeletPort o;
     app.InsecureKubelet := b |}.

End Plan.

(** ** A concrete world to run the code in

    Small stand-ins for the libraries, with a switch per fallible call, so
    that [Config] and [Run] can be evaluated. *)

Module Demo.

(** The part of [SecureServingOptions] that names the serving certificate. *)
Record ServingOptions : Type := mkServingOptions {
  CertFile : string;
  KeyFile : string;
  CertDirectory : string;
  PairName : string;
}.

(** Which calls fail, and with which error. *)
Record Faults : Type := mkFaults {
  certs : option string;
  serving : option string;
  authn : option string;
  authz : option string;
  kubeconfig : option string;
  in_cluster : option string;
  client : option string;
  kubelet : option string;
  source_manager : option string;
  server_new : option string;
  server_run : option string;
}.

Definition no_faults : Faults :=
  mkFaults None None None None None None None None None None None.

Definition types : Types := {|
  SecureServingOptions := ServingOptions;
  DelegatingAuthenticationOptions := string;
  DelegatingAuthorizationOptions := string;
  FeatureOptions := string;
  IP := string;
  LibError := string;
  CodecFactory := string;
  SecureServingInfo := string;
  AuthenticationInfo := string;
  AuthorizationInfo := string;
  swagger_Config := string;
  openapi_Config := string;
  OtherConfigFields := string;
  GenericAPIServer := string;
  preparedGenericAPIServer := string;
  rest_Config := string;
  Clientset := string;
  SharedInformerFactory := string;
  NodeLister := string;
  KubeletClientConfig := string;
  KubeletInterface := string;
  MetricSourceProvider := string;
  MetricSource := string;
  MetricSink := string;
  MetricsProvider := string;
  Manager := string;
  CompletedConfig := string;
  MetricsServer := string;
  StopCh := string;
|}.

#[local] Existing Instance types.

(** Modelled from the spec: [MaybeDefaultWithSelfSignedCerts] of
    k8s.io/apiserver, which is not part of start.go.  "If none was supplied,
    generate a self-signed certificate"; "downstream steps read the
    now-populated certificate paths": when neither a certificate nor a key
    file is named, the method names them after the pair in the certificate
    directory, in the structure it is called on, and generates the pair. *)
Definition maybeDefaultWithSelfSignedCerts (f : Faults)
    (publicAddress : string) (alternateDNS : list string) (alternateIPs : list string)
    : Method ServingOptions (option string) :=
  {| body := fun s =>
       if (String.length (CertFile s) =? 0)%nat && (String.length (KeyFile s) =? 0)%nat
       then
         ({| CertFile := CertDirectory s +:+ "/" +:+ PairName s +:+ ".crt";
             KeyFile := CertDirectory s +:+ "/" +:+ PairName s +:+ ".key";
             CertDirectory := CertDirectory s;
             PairName := PairName s |},
          certs f)
       else (s, None);
     body_nil := None |}.

Definition collaborators (f : Faults) : @Collaborators types := {|
  NewSecureServingOptions :=
    mkServingOptions "" "" "apiserver.local.config/certificates" "apiserver";
  NewDelegatingAuthenticationOptions := "authentication options";
  NewDelegatingAuthorizationOptions := "authorization options";
  NewFeatureOptions := "feature options";
  ParseIP := fun s => s;
  MaybeDefaultWithSelfSignedCerts := maybeDefaultWithSelfSignedCerts f;
  SecureServing_ApplyTo := fun _ =>
    {| body := fun s => (s, ("serving with " +:+ CertFile s, serving f));
       body_nil := ("", None) |};
  Authentication_ApplyTo := fun _ servingInfo _ =>
    {| body := fun s => (s, (s +:+ " over " +:+ servingInfo, servingInfo, authn f));
       body_nil := ("", servingInfo, None) |};
  Authorization_ApplyTo := fun _ =>
    {| body := fun s => (s, (s, authz f));
       body_nil := ("", None) |};
  Codecs := "codecs";
  NewConfig := fun _ =>
    {| genericapiserver.SecureServing := "";
       genericapiserver.Authentication := "";
       genericapiserver.Authorization := "";
       genericapiserver.SwaggerConfig := "";
       genericapiserver.EnableMetrics := false;
       genericapiserver.Other := "profiling off" |};
  DefaultSwaggerConfig := "default swagger";
  ClientConfig := fun l =>
    match l with
    | clientcmd.NewNonInteractiveDeferredLoadingClientConfig r _ =>
        ("config from " +:+ clientcmd.ExplicitPath r, kubeconfig f)
    end;
  InClusterConfig := ("in-cluster config", in_cluster f);
  NewForConfig := fun c => ("client for " +:+ c, client f);
  NewSharedInformerFactory := fun c _ => "informers of " +:+ c;
  Nodes_Lister := fun i => "nodes of " +:+ i;
  GetKubeletConfig := fun c _ => "kubelet config from " +:+ c;
  KubeletClientFor := fun c => ("kubelet client", kubelet f);
  NewSummaryProvider := fun _ _ => "summary provider";
  DefaultMetricsScrapeTimeout := 0;
  NewSourceManager := fun _ _ => ("source manager", source_manager f);
  NewSinkProvider := ("sink", "provider");
  NewManager := fun _ _ _ => "manager";
  Complete := fun _ _ => "completed config";
  New := fun _ => ("metrics server", server_new f);
  AddHealthzChecks := fun s _ => s +:+ " with healthz";
  MetricsServer_GenericAPIServer := fun s => "generic part of " +:+ s;
  PrepareRun := fun s => "prepared " +:+ s;
  prepared_Run := fun _ _ => server_run f;
|}.

Definition empty_heap : @Heap types :=
  {| hSecureServing := ∅; hAuthentication := ∅; hAuthorization := ∅; hFeatures := ∅ |}.

(** The options as [NewCommandStartMetricsServer] builds them, before any
    flag is read, and the heap they live in. *)
Definition options (f : Faults) : @app.MetricsServerOptions :=
  result (@app.NewMetricsServerOptions types (collaborators f) empty_heap).

Definition heap (f : Faults) : @Heap types :=
  heap_after (@app.NewMetricsServerOptions types (collaborators f) empty_heap).

Definition config (f : Faults) :=
  @app.Config types (collaborators f) (options f) (heap f).

Definition run (f : Faults) :=
  @app.Run types (collaborators f) (options f) "stop" (heap f).

(** [SecureServing.ApplyTo] fails. *)
Definition serving_fails : Faults :=
  mkFaults None (Some "no serving certificate")
    None None None None None None None None None.

(** The configuration [Run] hands to [Complete] when nothing fails. *)
Definition injected_config : @apiserver.Config types :=
  {| apiserver.GenericConfig :=
       {| genericapiserver.SecureServing :=
            "serving with apiserver.local.config/certificates/apiserver.crt";
          genericapiserver.Authentication :=
            "authentication options over serving with apiserver.local.config/certificates/apiserver.crt";
          genericapiserver.Authorization := "authorization options";
          genericapiserver.SwaggerConfig := "default swagger";
          genericapiserver.EnableMetrics := true;
          genericapiserver.Other := "profiling off" |};
     apiserver.ProviderConfig_ :=
       {| apiserver.Node := Some "provider"; apiserver.Pod := Some "provider" |} |}.

(** The configuration [Config] returns when nothing fails. *)
Definition assembled_config : @apiserver.Config types :=
  {| apiserver.GenericConfig :=
       genericapiserver.set_EnableMetrics false (apiserver.GenericConfig injected_config);
     apiserver.ProviderConfig_ :=
       {| apiserver.Node := None; apiserver.Pod := None |} |}.

(** The call that fails under [serving_fails]. *)
Definition failed_serving_call : @Event types :=
  EvSecureServingApplyTo 1%positive
    (Some {| CertFile := "apiserver.local.config/certificates/apiserver.crt";
             KeyFile := "apiserver.local.config/certificates/apiserver.key";
             CertDirectory := "apiserver.local.config/certificates";
             PairName := "apiserver" |})
    (Some "no serving certificate").

(** The default options with the test switch [DisableAuthForTesting] on. *)
Definition options_no_auth : @app.MetricsServerOptions :=
  {| app.SecureServing := app.SecureServing (options no_faults);
     app.Authentication := app.Authentication (options no_faults);
     app.Authorization := app.Authorization (options no_faults);
     app.Features := app.Features (options no_faults);
     app.Kubeconfig := "";
     app.DisableAuthForTesting := true;
     app.MetricResolution := app.MetricResolution (options no_faults);
     app.KubeletPort := app.KubeletPort (options no_faults);
     app.InsecureKubelet := false |}.

End Demo.

(** ** Method calls and the heap *)

Section Invoke.
Context {T A : Type}.
Implicit Types (m : Method T A) (p q : loc) (cells : gmap loc T).

(** A method call returns what the method returns on the cell it is called
    on, leaves there what the method leaves, and leaves every other cell as
    it was. *)
Lemma invoke_inv m p cells (a : A) (cells' : gmap loc T) :
  invoke m p cells = (a, cells') →
  result_on m (cells !! p) = a ∧
  cells' !! p = left_by m (cells !! p) ∧
  ∀ q, q ≠ p → cells' !! q = cells !! q.
Proof.
  unfold invoke, result_on, left_by.
  destruct (cells !! p) as [s |] eqn:Hs.
  - destruct (body m s) as [s' a'] eqn:Hb. intros [= <- <-]. cbn.
    split; [done |]. split; [apply lookup_insert_eq |].
    intros q Hq. by apply lookup_insert_ne.
  - intros [= <- <-]. by rewrite Hs.
Qed.

End Invoke.

(** ** Reading traces *)

Section Traces.
Context `{Collaborators}.

Lemma earlier_split (t : list Event) (a b : Event) :
  earlier t a b ↔ ∃ t1 t2 t3, t = (t1 ++ a :: t2 ++ b :: t3)%list.
Proof.
  split.
  - induction 1 as [a b t Hb | c a b t _ (t1 & t2 & t3 & ->)].
    + apply list_elem_of_split in Hb as (t2 & t3 & ->). by exists [], t2, t3.
    + by exists (c :: t1), t2, t3.
  - intros (t1 & t2 & t3 & ->). induction t1 as [| c t1 IH]; cbn.
    + apply earlier_here, elem_of_app. right. apply list_elem_of_here.
    + by apply earlier_later.
Qed.

Lemma earlier_elem_of (t : list Event) (a b : Event) :
  earlier t a b → a ∈ t ∧ b ∈ t.
Proof.
  induction 1 as [a b t Hb | c a b t _ [Ha Hb]]; split;
    eauto using list_elem_of_here, list_elem_of_further.
Qed.

End Traces.

(** ** Symbolic execution of the embedding *)

(** Unfold the monad and the call wrappers. *)
Ltac unfold_calls :=
  unfold app.Run, app.Config, mbind, M_bind, mret, M_ret,
    call_MaybeDefaultWithSelfSignedCerts, call_NewConfig, call_SecureServing_ApplyTo,
    call_Authentication_ApplyTo, call_Authorization_ApplyTo, call_DefaultSwaggerConfig,
    call_ClientConfig, call_InClusterConfig, call_NewForConfig,
    call_NewSharedInformerFactory, call_GetKubeletConfig, call_KubeletClientFor,
    call_Nodes_Lister, call_NewSummaryProvider, call_NewSourceManager,
    call_NewSinkProvider, call_NewManager, call_Complete, call_New,
    call_AddHealthzChecks, call_RunUntil, call_PrepareRun, call_Run, emit, libErr.

(** Case analysis on a scrutinee that has no case analysis inside it: the
    next thing the code looks at. *)
Ltac split_inner :=
  match goal with
  | |- context [match ?x with _ => _ end] =>
      lazymatch x with
      | context [match _ with _ => _ end] => fail
      | negb ?b => destruct b eqn:?
      | _ => destruct x eqn:?
      end
  end.

(** Run the code on every path. *)
Ltac exec :=
  unfold result, heap_after, trace;
  unfold_calls;
  repeat (cbn -[String.length Nat.ltb invoke]; try split_inner).

(** Run the computation [c] on every path, and put what it leaves on that
    path (result, heap, calls) in place of [c] in the goal. *)
Ltac exec_on c :=
  let out := fresh "out" in
  let h' := fresh "h'" in
  let t := fresh "t" in
  let Hr := fresh "Hr" in
  cbv zeta;
  destruct c as [[out h'] t] eqn:Hr;
  revert Hr; exec; intros Hr;
  injection Hr as <- <- <-.

(** Say what each method call found on a path returned and left. *)
Ltac invoke_facts :=
  repeat match goal with
         | Heq : invoke _ _ _ = (_, _) |- _ =>
             apply invoke_inv in Heq as (? & ? & ?)
         end.

(** Put what a library call was found to return in place of the call. *)
Ltac use_results :=
  cbn;
  repeat match goal with
         | Heq : ?call = (_, _) |- context [?call] => rewrite Heq
         end;
  cbn.

(** Split a conjunction into its parts, under its premises. *)
Ltac parts :=
  repeat first [ progress intros | match goal with |- _ ∧ _ => split end ].

(** Go through the members of a trace that is known call by call, keeping
    the calls that can be the one in question. *)
Ltac members :=
  repeat match goal with
  | Hin : _ ∈ [] |- _ => by apply elem_of_nil in Hin
  | Hin : _ ∈ _ :: _ |- _ =>
      apply elem_of_cons in Hin as [Hin | Hin];
      [ first [ discriminate Hin
              | injection Hin as ?; subst
              | subst; cbn in *; try discriminate ] |]
  end.

(** Find a call, or two calls in order, in a trace known call by call. *)
Ltac find_call :=
  solve [ repeat first [ apply list_elem_of_here | apply list_elem_of_further ] ].

Ltac find_earlier :=
  solve [ repeat first [ apply earlier_here; find_call | apply earlier_later ] ].

(** Use what is known of every call of a trace known call by call. *)
Ltac each_call H :=
  lazymatch type of H with
  | ∀ ev, ev ∈ ?t → @?P ev =>
      let rec go l :=
        lazymatch l with
        | ?a :: ?l' =>
            let Ha := fresh "Ha" in
            assert (Ha := H a ltac:(find_call)); cbn in Ha;
            repeat match type of Ha with
                   | ?x = ?x → _ => specialize (Ha eq_refl)
                   end;
            go l'
        | _ => idtac
        end in
      go t
  end.

(** ** Configuration assembly *)

Section ConfigProperties.
Context `{Collaborators}.
Implicit Types (o : app.MetricsServerOptions) (h : Heap).

(** C6.  [Config] returns an error or a configuration, never both: with an
    error the configuration is nil; a configuration comes with a nil error
    and only when no step failed; and when a step fails, what is returned
    is that step's error (for the certificate step, inside the message
    that names the step) and a nil configuration. *)
Theorem Config_error_or_config o h :
  let r := result (app.Config o h) in
  let t := trace (app.Config o h) in
  (r.2 ≠ None → r.1 = None) ∧
  (r.1 ≠ None → r.2 = None ∧ ∀ ev, ev ∈ t → failure ev = None) ∧
  (∀ ev x, ev ∈ t → failure ev = Some x →
     r = (None, Some (returned_error ev x))).
Proof.
  exec_on (app.Config o h).
  all: parts; try done.
  all: members; by simplify_eq/=.
Qed.


End ConfigProperties.

(** ** The run *)

Section RunProperties.
Context `{Collaborators}.
Implicit Types (o : app.MetricsServerOptions) (h : Heap) (stopCh : StopCh).


(** After [Config], [Run] leaves the heap alone. *)
Lemma Run_heap o stopCh h :
  heap_after (app.Run o stopCh h) = heap_after (app.Config o h).
Proof.
  destruct (app.Config o h) as [[rc hc] tc] eqn:Hc. revert Hc.
  exec_on (app.Run o stopCh h).
  all: by intros [= <- <- <-].
Qed.

(** The nil check on the configuration [Config] returned never fires. *)
Lemma Run_never_panics o stopCh h : result (app.Run o stopCh h) ≠ app.Panics.
Proof. exec_on (app.Run o stopCh h); discriminate. Qed.

(** C2.  [Run] starts the manager's loop before the server: the server is
    prepared after [mgr.RunUntil(stopCh)] and run after it is prepared, and
    the manager and the server get the channel [Run] was given.  When a
    call other than these fails, [Run] returns the error of that call and
    has started neither.  When none fails, both are started. *)
Theorem Run_manager_before_server o stopCh h :
  let r := app.Run o stopCh h in
  (∀ mgr ch, EvRunUntil mgr ch ∈ trace r → ch = stopCh) ∧
  (∀ p ch err,
     EvRun p ch err ∈ trace r →
     ch = stopCh ∧
     ∃ mgr s,
       p = PrepareRun s ∧
       earlier (trace r) (EvRunUntil mgr stopCh) (EvPrepareRun s) ∧
       earlier (trace r) (EvPrepareRun s) (EvRun p ch err)) ∧
  (∀ ev x,
     ev ∈ trace r → starts_service ev = false → failure ev = Some x →
     result r = app.Returns (Some (returned_error ev x)) ∧
     ∀ ev', ev' ∈ trace r → starts_service ev' = false) ∧
  ((∀ ev, ev ∈ trace r → starts_service ev = false → failure ev = None) →
   ∃ mgr p err, earlier (trace r) (EvRunUntil mgr stopCh) (EvRun p stopCh err)).
Proof.
  exec_on (app.Run o stopCh h).
  all: split; [| split; [| split]];
    [ intros ?? Hin; members; done
    | intros ??? Hin; members;
      (split; [done |]; eexists _, _; split; [reflexivity |]; split; find_earlier)
    | intros ?? Hin Hs Hf; members; simplify_eq/=;
      (split; [done |]; intros ? Hin'; members; done)
    | first [ solve [intros _; eexists _, _, _; find_earlier]
            | intros Hall; by each_call Hall ] ].
Qed.

(** C3.  The configuration handed to [Complete] has the provider that
    [NewSinkProvider] returned in both slots, so the two slots hold the
    same provider; [NewSinkProvider] has been called before, and it is
    called once: there is one sink and provider pair, not one per slot.
    [Complete] is called once, and the server is made from that completed
    configuration. *)
Theorem Run_one_provider_in_both_slots o stopCh h cfg informers :
  EvComplete cfg informers ∈ trace (app.Run o stopCh h) →
  apiserver.Node (apiserver.ProviderConfig_ cfg) = Some NewSinkProvider.2 ∧
  apiserver.Pod (apiserver.ProviderConfig_ cfg) = Some NewSinkProvider.2 ∧
  earlier (trace (app.Run o stopCh h)) EvNewSinkProvider (EvComplete cfg informers) ∧
  (∀ c err,
     EvNew c err ∈ trace (app.Run o stopCh h) →
     c = Complete cfg informers ∧
     earlier (trace (app.Run o stopCh h)) (EvComplete cfg informers) (EvNew c err)) ∧
  apiserver.Node (apiserver.ProviderConfig_ cfg) =
    apiserver.Pod (apiserver.ProviderConfig_ cfg) ∧
  length (filter (λ ev, call_name ev = "provider.NewSinkProvider")
            (trace (app.Run o stopCh h))) = 1%nat ∧
  length (filter (λ ev, call_name ev = "apiserver.Config.Complete")
            (trace (app.Run o stopCh h))) = 1%nat.
Proof.
  exec_on (app.Run o stopCh h).
  all: intros Hin; members; simplify_eq/=.
  all: parts; try done; try find_earlier.
  all: members; simplify_eq/=; try done; find_earlier.
Qed.


(** C8.  Every informer factory is made with a resync interval of zero,
    and one is made whenever the client was. *)
Theorem Run_informers_never_resync o stopCh h :
  let t := trace (app.Run o stopCh h) in
  (∀ client d, EvNewSharedInformerFactory client d ∈ t → d = 0) ∧
  (∀ c, EvNewForConfig c None ∈ t →
     earlier t (EvNewForConfig c None)
       (EvNewSharedInformerFactory (NewForConfig c).1 0)).
Proof.
  exec_on (app.Run o stopCh h).
  all: parts; members; simplify_eq/=; try done.
  all: match goal with Heq : NewForConfig _ = _ |- _ => rewrite Heq end.
  all: find_earlier.
Qed.

(** C10.  [Run] never returns the "unable to create main manager" error:
    when [NewManager] has been called, the last assignment to [err], by
    [NewSourceManager], left nil there. *)
Theorem Run_main_manager_check_dead o stopCh h :
  let r := app.Run o stopCh h in
  (∀ e, result r ≠ app.Returns (Some (Errorf "unable to create main manager: " e))) ∧
  (∀ src sink resolution,
     EvNewManager src sink resolution ∈ trace r →
     ∃ p timeout,
       earlier (trace r)
         (EvNewSourceManager p timeout None) (EvNewManager src sink resolution)).
Proof.
  exec_on (app.Run o stopCh h).
  all: split; [congruence |].
  all: intros ??? Hin; members; simplify_eq/=.
  all: eexists _, _; find_earlier.
Qed.

End RunProperties.

(** ** What is wrapped, what is written *)

Section FrameProperties.
Context `{Collaborators}.
Implicit Types (o : app.MetricsServerOptions) (h : Heap) (stopCh : StopCh).

(** C4.  [Config] has no feature-gate step: what it returns and the calls
    it makes are the same whatever the feature options hold, it leaves them
    as they are, and the part of the server configuration that none of its
    steps writes is as [NewConfig] made it. *)
Theorem Config_ignores_Features o h (features : gmap loc FeatureOptions) :
  let h' := {| hSecureServing := hSecureServing h;
               hAuthentication := hAuthentication h;
               hAuthorization := hAuthorization h;
               hFeatures := features |} in
  result (app.Config o h') = result (app.Config o h) ∧
  trace (app.Config o h') = trace (app.Config o h) ∧
  hFeatures (heap_after (app.Config o h')) = features ∧
  (∀ c, (result (app.Config o h)).1 = Some c →
     genericapiserver.Other (apiserver.GenericConfig c) =
     genericapiserver.Other (NewConfig Codecs)).
Proof.
  cbv zeta. exec.
  all: parts; simplify_eq/=; done.
Qed.

(** C5, as the code has it.  When a call fails, it is the last call [Run]
    makes and [Run] returns its error: behind a message that names the
    stage for the certificate step, the client configuration, the client,
    the kubelet client and the source manager; as it is for the three
    [ApplyTo] steps of [Config], for the making of the server and for its
    run.  No call is made twice. *)
Theorem Run_error_wrapping o stopCh h :
  let r := app.Run o stopCh h in
  (∀ ev x,
     ev ∈ trace r → failure ev = Some x →
     last (trace r) = Some ev ∧
     result r = app.Returns (Some (returned_error ev x))) ∧
  NoDup (call_name <$> trace r).
Proof.
  exec_on (app.Run o stopCh h).
  all: split;
    [ intros ?? Hin Hf; members; by simplify_eq/=
    | apply (bool_decide_unpack _); by vm_compute ].
Qed.

(** C9, as the code has it.  [Run] writes no feature options, and of the
    other option structures none but the three its [MetricsServerOptions]
    points to, which it hands to their own methods. *)
Theorem Run_writes_through_methods_only o stopCh h :
  let h' := heap_after (app.Run o stopCh h) in
  hFeatures h' = hFeatures h ∧
  (∀ p, p ≠ app.SecureServing o → hSecureServing h' !! p = hSecureServing h !! p) ∧
  (∀ p, p ≠ app.Authentication o → hAuthentication h' !! p = hAuthentication h !! p) ∧
  (∀ p, p ≠ app.Authorization o → hAuthorization h' !! p = hAuthorization h !! p).
Proof.
  cbv zeta. rewrite Run_heap.
  exec_on (app.Config o h).
  all: invoke_facts; parts; cbn; try done.
  all: repeat match goal with
              | Hq : ∀ q, q ≠ ?p → _ !! q = _, Hne : ?r ≠ ?p |- _ =>
                  rewrite (Hq r Hne); clear Hq
              end.
  all: done.
Qed.

End FrameProperties.

(** ** The code at work *)

Section DemoFacts.

#[local] Existing Instance Demo.types.

(** The calls of a start-up in which nothing fails, in order. *)
Example Run_calls_without_faults :
  call_name <$> trace (Demo.run Demo.no_faults) =
  [ "SecureServingOptions.MaybeDefaultWithSelfSignedCerts";
    "genericapiserver.NewConfig";
    "SecureServingOptions.ApplyTo";
    "DelegatingAuthenticationOptions.ApplyTo";
    "DelegatingAuthorizationOptions.ApplyTo";
    "genericapiserver.DefaultSwaggerConfig";
    "rest.InClusterConfig";
    "kubernetes.NewForConfig";
    "informers.NewSharedInformerFactory";
    "summary.GetKubeletConfig";
    "summary.KubeletClientFor";
    "NodeInformer.Lister";
    "summary.NewSummaryProvider";
    "sources.NewSourceManager";
    "provider.NewSinkProvider";
    "manager.NewManager";
    "apiserver.Config.Complete";
    "apiserver.CompletedConfig.New";
    "GenericAPIServer.AddHealthzChecks";
    "manager.Manager.RunUntil";
    "GenericAPIServer.PrepareRun";
    "preparedGenericAPIServer.Run" ].
Proof. vm_compute. reflexivity. Qed.

(** C5, as the spec has it, fails: the error of [SecureServing.ApplyTo], a
    call of configuration assembly, comes back from [Run] as the library
    made it, with no message in front. *)
Lemma Run_returns_unwrapped_error :
  Demo.failed_serving_call ∈ trace (Demo.run Demo.serving_fails) ∧
  construction_stage Demo.failed_serving_call = true ∧
  failure Demo.failed_serving_call = Some "no serving certificate" ∧
  result (Demo.run Demo.serving_fails) =
    app.Returns (Some (LibErr "no serving certificate")) ∧
  ¬ ∃ prefix cause,
      result (Demo.run Demo.serving_fails) = app.Returns (Some (Errorf prefix cause)).
Proof.
  split; [vm_compute; find_call |].
  repeat split. intros (prefix & cause & Heq). vm_compute in Heq. discriminate.
Qed.

(** C9, as the spec has it, fails: the secure-serving options the
    [MetricsServerOptions] points to name no certificate file before the
    run, and name one after it. *)
Lemma Run_writes_SecureServing_options :
  Demo.CertFile <$>
    hSecureServing (Demo.heap Demo.no_faults)
      !! app.SecureServing (Demo.options Demo.no_faults) = Some "" ∧
  Demo.CertFile <$>
    hSecureServing (heap_after (Demo.run Demo.no_faults))
      !! app.SecureServing (Demo.options Demo.no_faults) =
    Some "apiserver.local.config/certificates/apiserver.crt" ∧
  heap_after (Demo.run Demo.no_faults) ≠ Demo.heap Demo.no_faults.
Proof.
  split; [by vm_compute |]. split; [by vm_compute |].
  intros Heq.
  apply (f_equal (λ x, Demo.CertFile <$> hSecureServing x !! 1%positive)) in Heq.
  vm_compute in Heq. discriminate.
Qed.

(** C3 at work: a start-up in which nothing fails reaches [Complete], with
    the provider in both slots. *)
Lemma Run_one_provider_in_both_slots_witness :
  EvComplete Demo.injected_config "informers of client for in-cluster config"
    ∈ trace (Demo.run Demo.no_faults) ∧
  apiserver.Node (apiserver.ProviderConfig_ Demo.injected_config) = Some "provider" ∧
  apiserver.Pod (apiserver.ProviderConfig_ Demo.injected_config) = Some "provider".
Proof.
  assert (Hin : EvComplete Demo.injected_config "informers of client for in-cluster config"
                  ∈ trace (Demo.run Demo.no_faults)) by (vm_compute; find_call).
  split; [exact Hin |].
  destruct (@Run_one_provider_in_both_slots Demo.types
              (Demo.collaborators Demo.no_faults)
              (Demo.options Demo.no_faults) "stop" (Demo.heap Demo.no_faults)
              Demo.injected_config "informers of client for in-cluster config" Hin)
    as (Hnode & Hpod & _).
  split; [exact Hnode | exact Hpod].
Defined.


End DemoFacts.


Section RunOutOfTheBox.
Context `{Collaborators}.
Implicit Types (h : Heap) (stopCh : StopCh).

(** X2.  [Run] on the options [NewMetricsServerOptions] has just built,
    no flag having changed them.  The certificate step is called on the
    secure-serving options as the library's constructor made them, and
    [SecureServing.ApplyTo] on what that step left of them.  No kubeconfig
    is loaded: the client configuration can only come from the cluster.
    Authentication and authorization are not skipped: when [Config] gets
    to the swagger default, both have been applied.  The kubelet port is
    10250 and the manager's resolution sixty seconds. *)
Theorem Run_on_new_options h stopCh :
  let r0 := app.NewMetricsServerOptions h in
  let o := result r0 in
  let t := trace (app.Run o stopCh (heap_after r0)) in
  (∃ err rest,
     t = EvMaybeDefaultWithSelfSignedCerts
           (app.SecureServing o) (Some NewSecureServingOptions)
           "localhost" [] [ParseIP "127.0.0.1"] err :: rest) ∧
  (∀ recv this err,
     EvSecureServingApplyTo recv this err ∈ t →
     this = Some (body (MaybeDefaultWithSelfSignedCerts
                          "localhost" [] [ParseIP "127.0.0.1"])
                       NewSecureServingOptions).1) ∧
  (∀ l err, EvClientConfig l err ∉ t) ∧
  (EvDefaultSwaggerConfig ∈ t →
   ∃ servingInfo,
     earlier t
       (EvAuthenticationApplyTo (app.Authentication o) servingInfo None)
       (EvAuthorizationApplyTo (app.Authorization o) None) ∧
     earlier t (EvAuthorizationApplyTo (app.Authorization o) None)
       EvDefaultSwaggerConfig) ∧
  (∀ c port, EvGetKubeletConfig c port ∈ t → port = 10250) ∧
  (∀ src sink resolution, EvNewManager src sink resolution ∈ t →
     resolution = 60000000000).
Proof.
  cbv zeta. unfold app.NewMetricsServerOptions, app.alloc.
  generalize (fresh (dom (hSecureServing h))) as ss.
  generalize (fresh (dom (hAuthentication h))) as an.
  generalize (fresh (dom (hAuthorization h))) as az.
  generalize (fresh (dom (hFeatures h))) as ft.
  intros ft az an ss. cbn.
  match goal with
  | |- context [app.Run ?o stopCh ?h1] => exec_on (app.Run o stopCh h1)
  end.
  all: try match goal with
           | Hk : (0 <? String.length "")%nat = true |- _ => discriminate Hk
           end.
  all: rewrite ?lookup_insert_eq.
  all: invoke_facts.
  all: repeat match goal with
              | Hl : context [<[?p := _]> _ !! ?p] |- _ =>
                  rewrite lookup_insert_eq in Hl
              end.
  all: split; [by eexists _, _ |];
       split; [intros ??? Hin; members; by cbn in * |];
       split; [intros ?? Hin; by members |];
       split; [intros Hin; members; (eexists; split; find_earlier) |];
       split; [intros ?? Hin; by members | intros ??? Hin; by members].
Qed.

End RunOutOfTheBox.

(** ** More on configuration assembly *)

Section ConfigShape.
Context `{Collaborators}.
Implicit Types (o : app.MetricsServerOptions) (h : Heap) (stopCh : StopCh).

(** X3.  With [DisableAuthForTesting], [Config] calls neither
    [Authentication.ApplyTo] nor [Authorization.ApplyTo], leaves every
    authentication and authorization option structure as it was, and the
    configuration it returns is the one [NewConfig] made with two fields
    written: the serving configuration, by [SecureServing.ApplyTo], and the
    swagger default. *)
Theorem Config_without_auth o h :
  app.DisableAuthForTesting o = true →
  let r := app.Config o h in
  hAuthentication (heap_after r) = hAuthentication h ∧
  hAuthorization (heap_after r) = hAuthorization h ∧
  (∀ recv servingInfo err, EvAuthenticationApplyTo recv servingInfo err ∉ trace r) ∧
  (∀ recv err, EvAuthorizationApplyTo recv err ∉ trace r) ∧
  (∀ c, (result r).1 = Some c →
     ∃ this,
       EvSecureServingApplyTo (app.SecureServing o) this None ∈ trace r ∧
       c = {| apiserver.GenericConfig :=
                genericapiserver.set_SwaggerConfig DefaultSwaggerConfig
                  (genericapiserver.set_SecureServing
                     (result_on
                        (SecureServing_ApplyTo
                           (genericapiserver.SecureServing (NewConfig Codecs)))
                        this).1
                     (NewConfig Codecs));
              apiserver.ProviderConfig_ :=
                {| apiserver.Node := None; apiserver.Pod := None |} |}).
Proof.
  intros Hoff. revert Hoff.
  exec_on (app.Config o h).
  all: intros Hoff; try discriminate Hoff.
  all: split; [done |]; split; [done |].
  all: split; [intros ??? Hin; by members |].
  all: split; [intros ?? Hin; by members |].
  all: intros c Hc; simplify_eq/=.
  all: invoke_facts.
  all: eexists; split; [find_call |]; by use_results.
Qed.

(** X4.  A configuration [Config] returns has no provider in either slot,
    has the swagger default, and has [EnableMetrics] as [NewConfig] made
    it: the providers and the metrics switch are for [Run] to set. *)
Theorem Config_result_shape o h :
  ∀ c, (result (app.Config o h)).1 = Some c →
    apiserver.ProviderConfig_ c = {| apiserver.Node := None; apiserver.Pod := None |} ∧
    genericapiserver.SwaggerConfig (apiserver.GenericConfig c) = DefaultSwaggerConfig ∧
    genericapiserver.EnableMetrics (apiserver.GenericConfig c) =
      genericapiserver.EnableMetrics (NewConfig Codecs) ∧
    last (trace (app.Config o h)) = Some EvDefaultSwaggerConfig.
Proof.
  exec_on (app.Config o h).
  all: intros c Hc; by simplify_eq/=.
Qed.

End ConfigShape.

(** ** More on the run: what is passed on to what *)

Section RunWiring.
Context `{Collaborators}.
Implicit Types (o : app.MetricsServerOptions) (h : Heap) (stopCh : StopCh).

(** X5.  When [Config] fails, [Run] returns the error [Config] returned,
    as it is, and has made the calls of [Config] and no other. *)
Theorem Run_returns_Config_error o stopCh h c e :
  result (app.Config o h) = (c, Some e) →
  app.Run o stopCh h =
    (app.Returns (Some e), heap_after (app.Config o h), trace (app.Config o h)).
Proof.
  intros Hcfg. revert Hcfg.
  destruct (app.Config o h) as [[rc hc] tc] eqn:Hc. revert Hc.
  exec_on (app.Run o stopCh h).
  all: intros Hc Hcfg; by simplify_eq/=.
Qed.

(** X6.  [Run] returns nil exactly when no call failed, and then the last
    call is the server's [Run] on the channel [Run] was given. *)
Theorem Run_returns_nil_iff o stopCh h :
  let r := app.Run o stopCh h in
  (result r = app.Returns None ↔ ∀ ev, ev ∈ trace r → failure ev = None) ∧
  (result r = app.Returns None →
   ∃ p, last (trace r) = Some (EvRun p stopCh None)).
Proof.
  exec_on (app.Run o stopCh h).
  all: split;
    [ split;
      [ intros Hnil; try discriminate Hnil; intros ev Hin; by members
      | intros Hall; first [ done | by each_call Hall ] ]
    | intros Hnil; try discriminate Hnil; by eexists ].
Qed.

(** X7.  The names of the calls [Run] makes are an initial part of
    [call_plan]: [Run] makes the calls in that order and skips none; and
    when it gets to run the server, it has made them all. *)
Theorem Run_calls_follow_plan o stopCh h :
  let r := app.Run o stopCh h in
  call_name <$> trace r `prefix_of` call_plan o ∧
  (∀ p ch err, EvRun p ch err ∈ trace r → call_name <$> trace r = call_plan o).
Proof.
  unfold call_plan.
  exec_on (app.Run o stopCh h).
  all: split; [by eexists | intros ??? Hin; by members].
Qed.

(** X8.  [Run] does not look at [InsecureKubelet] nor at the feature
    options: with another value of the one, another pointer to the others
    and other feature options on the heap, it returns the same and makes
    the same calls. *)
Theorem Run_ignores_Features_and_InsecureKubelet
    o stopCh h (ft : loc) (b : bool) (features : gmap loc FeatureOptions) :
  let o' := with_Features_InsecureKubelet ft b o in
  let h' := {| hSecureServing := hSecureServing h;
               hAuthentication := hAuthentication h;
               hAuthorization := hAuthorization h;
               hFeatures := features |} in
  result (app.Run o' stopCh h') = result (app.Run o stopCh h) ∧
  trace (app.Run o' stopCh h') = trace (app.Run o stopCh h).
Proof.
  cbv zeta. unfold with_Features_InsecureKubelet.
  match goal with
  | |- context [app.Run ?o' stopCh ?h'] =>
      lazymatch o' with
      | o => fail
      | _ => destruct (app.Run o' stopCh h') as [[out' hh'] t'] eqn:Hr'; revert Hr'
      end
  end.
  exec_on (app.Run o stopCh h).
  all: by intros [= <- <- <-].
Qed.

(** X9.  The kubelet client is made from the client configuration the
    cluster client was made from, and from the [KubeletPort] of the
    options: whenever the cluster client was made, [GetKubeletConfig] is
    called next on that configuration and that port, and [KubeletClientFor]
    on what it returned; and there is no other call of either. *)
Theorem Run_kubelet_client_wiring o stopCh h :
  let t := trace (app.Run o stopCh h) in
  (∀ c, EvNewForConfig c None ∈ t →
     earlier t (EvNewForConfig c None) (EvGetKubeletConfig c (app.KubeletPort o)) ∧
     earlier t
       (EvGetKubeletConfig c (app.KubeletPort o))
       (EvKubeletClientFor
          (GetKubeletConfig c (app.KubeletPort o))
          (KubeletClientFor (GetKubeletConfig c (app.KubeletPort o))).2)) ∧
  (∀ c port, EvGetKubeletConfig c port ∈ t →
     port = app.KubeletPort o ∧ EvNewForConfig c None ∈ t) ∧
  (∀ kc err, EvKubeletClientFor kc err ∈ t →
     ∃ c, kc = GetKubeletConfig c (app.KubeletPort o) ∧ EvNewForConfig c None ∈ t).
Proof.
  exec_on (app.Run o stopCh h).
  all: split; [| split];
    [ intros ? Hin; members; use_results; (split; find_earlier)
    | intros ?? Hin; members; (split; [done | find_call])
    | intros ?? Hin; members; (eexists; split; [done | find_call]) ].
Qed.

End RunWiring.

Section RunWiring2.
Context `{Collaborators}.
Implicit Types (o : app.MetricsServerOptions) (h : Heap) (stopCh : StopCh).

(** X10.  The manager is made on the source manager [NewSourceManager]
    returned, on the sink [NewSinkProvider] returned and with the
    [MetricResolution] of the options; the source manager is made with the
    default scrape timeout, on a summary provider that reads the nodes
    from the informer factory and the kubelets through the kubelet
    client. *)
Theorem Run_manager_wiring o stopCh h :
  let t := trace (app.Run o stopCh h) in
  (∀ src sink resolution,
     EvNewManager src sink resolution ∈ t →
     resolution = app.MetricResolution o ∧
     sink = NewSinkProvider.1 ∧
     ∃ p,
       src = (NewSourceManager p DefaultMetricsScrapeTimeout).1 ∧
       earlier t
         (EvNewSourceManager p DefaultMetricsScrapeTimeout None)
         (EvNewManager src sink resolution)) ∧
  (∀ p timeout err,
     EvNewSourceManager p timeout err ∈ t →
     timeout = DefaultMetricsScrapeTimeout ∧
     ∃ f kc,
       p = NewSummaryProvider (Nodes_Lister f) (KubeletClientFor kc).1 ∧
       earlier t (EvKubeletClientFor kc None) (EvNodesLister f) ∧
       earlier t (EvNodesLister f) (EvNewSourceManager p timeout err)) ∧
  (∀ p, EvNewSourceManager p DefaultMetricsScrapeTimeout None ∈ t →
     ∃ src, EvNewManager src NewSinkProvider.1 (app.MetricResolution o) ∈ t).
Proof.
  exec_on (app.Run o stopCh h).
  all: split; [| split];
    [ intros ??? Hin; members;
      (split; [done |]; split; [done |]; eexists; split; [| find_earlier];
       by use_results)
    | intros ??? Hin; members;
      (split; [done |]; eexists _, _; split; [| split; find_earlier];
       by use_results)
    | intros ? Hin; members; (eexists; find_call) ].
Qed.

(** X11.  One informer factory serves both sides.  The factory handed
    to [Complete] is the one made on the cluster client; its node lister
    is taken, and the summary provider is made on that lister, before
    [Complete].  Every summary provider is made on the node lister of a
    factory made here with resync 0, and [Run] makes at most one factory,
    takes at most one lister and makes at most one summary provider. *)
Theorem Run_one_informer_factory o stopCh h :
  let t := trace (app.Run o stopCh h) in
  (∀ cfg informers,
     EvComplete cfg informers ∈ t →
     ∃ c,
       informers = NewSharedInformerFactory (NewForConfig c).1 0 ∧
       earlier t (EvNewForConfig c None) (EvNodesLister informers) ∧
       earlier t (EvNodesLister informers) (EvComplete cfg informers)) ∧
  (∀ f, EvNodesLister f ∈ t →
     ∃ client, f = NewSharedInformerFactory client 0 ∧
       earlier t (EvNewSharedInformerFactory client 0) (EvNodesLister f)) ∧
  (∀ l k, EvNewSummaryProvider l k ∈ t →
     ∃ client,
       l = Nodes_Lister (NewSharedInformerFactory client 0) ∧
       earlier t
         (EvNewSharedInformerFactory client 0)
         (EvNodesLister (NewSharedInformerFactory client 0)) ∧
       earlier t
         (EvNodesLister (NewSharedInformerFactory client 0))
         (EvNewSummaryProvider l k)) ∧
  (∀ cfg informers,
     EvComplete cfg informers ∈ t →
     ∃ k,
       earlier t
         (EvNewSummaryProvider (Nodes_Lister informers) k)
         (EvComplete cfg informers)) ∧
  (length (filter (λ ev, call_name ev = "informers.NewSharedInformerFactory") t) ≤ 1)%nat ∧
  (length (filter (λ ev, call_name ev = "NodeInformer.Lister") t) ≤ 1)%nat ∧
  (length (filter (λ ev, call_name ev = "summary.NewSummaryProvider") t) ≤ 1)%nat.
Proof.
  exec_on (app.Run o stopCh h).
  all: split; [| split; [| split; [| split; [| split; [| split]]]]];
    [ intros ?? Hin; members;
      (eexists; split; [| split; find_earlier]; by use_results)
    | intros ? Hin; members; (eexists; split; [done | find_earlier])
    | intros ?? Hin; members;
      (eexists; split; [done |]; split; find_earlier)
    | intros ?? Hin; members; (eexists; find_earlier)
    | vm_compute; lia | vm_compute; lia | vm_compute; lia ].
Qed.

(** X12.  The configuration [Run] completes is the one [Config] returned,
    with metrics enabled and the provider in both slots, and nothing else
    changed.  The provider comes from the one call of [NewSinkProvider],
    made before [Complete]; [Complete] is called at most once; and [New]
    is called after it, on what it returned. *)
Theorem Run_completes_Config_result o stopCh h :
  let t := trace (app.Run o stopCh h) in
  (∀ cfg informers,
     EvComplete cfg informers ∈ t →
     ∃ c0,
       result (app.Config o h) = (Some c0, None) ∧
       cfg = apiserver.set_Pod (Some NewSinkProvider.2)
               (apiserver.set_Node (Some NewSinkProvider.2)
                  (apiserver.set_EnableMetrics true c0)) ∧
       genericapiserver.EnableMetrics (apiserver.GenericConfig cfg) = true) ∧
  (∀ c err, EvNew c err ∈ t → ∃ cfg informers, EvComplete cfg informers ∈ t) ∧
  (∀ c err,
     EvNew c err ∈ t →
     ∃ cfg informers,
       c = Complete cfg informers ∧
       earlier t (EvComplete cfg informers) (EvNew c err)) ∧
  (∀ cfg informers,
     EvComplete cfg informers ∈ t →
     earlier t EvNewSinkProvider (EvComplete cfg informers)) ∧
  (length (filter (λ ev, call_name ev = "provider.NewSinkProvider") t) ≤ 1)%nat ∧
  (length (filter (λ ev, call_name ev = "apiserver.Config.Complete") t) ≤ 1)%nat.
Proof.
  cbv zeta.
  destruct (app.Config o h) as [[rc hc] tc] eqn:Hc. revert Hc.
  exec_on (app.Run o stopCh h).
  all: intros Hc; split; [| split; [| split; [| split; [| split]]]];
    [ intros ?? Hin; members;
      (eexists; split; [by simplify_eq/= |]; by use_results)
    | intros ?? Hin; members; (eexists _, _; find_call)
    | intros ?? Hin; members; (eexists _, _; split; [done | find_earlier])
    | intros ?? Hin; members; find_earlier
    | vm_compute; lia | vm_compute; lia ].
Qed.

(** X13.  The health check is registered before anything runs, on the
    server [New] returned: one check, named "healthz", that asks the
    manager [Run] then starts; and the server that is prepared and run is
    the one the check was added to. *)
Theorem Run_health_check_wiring o stopCh h :
  let t := trace (app.Run o stopCh h) in
  (∀ s checks,
     EvAddHealthzChecks s checks ∈ t →
     ∃ c mgr,
       earlier t (EvNew c None) (EvAddHealthzChecks s checks) ∧
       s = (New c).1 ∧
       checks = [healthz.NamedCheck "healthz" (healthz.Manager_CheckHealth mgr)] ∧
       earlier t (EvAddHealthzChecks s checks) (EvRunUntil mgr stopCh) ∧
       earlier t
         (EvRunUntil mgr stopCh)
         (EvPrepareRun (MetricsServer_GenericAPIServer (AddHealthzChecks s checks)))) ∧
  (∀ mgr ch,
     EvRunUntil mgr ch ∈ t →
     ∃ src sink resolution,
       mgr = NewManager src sink resolution ∧
       earlier t (EvNewManager src sink resolution) (EvRunUntil mgr ch)) ∧
  (∀ c, EvNew c None ∈ t →
     ∃ checks, EvAddHealthzChecks (New c).1 checks ∈ t).
Proof.
  exec_on (app.Run o stopCh h).
  all: split; [| split];
    [ intros ?? Hin; members;
      (eexists _, _; split; [find_earlier |]; split; [by use_results |];
       split; [done |]; split; find_earlier)
    | intros ?? Hin; members;
      (eexists _, _, _; split; [done | find_earlier])
    | intros ? Hin; members; (eexists; use_results; find_call) ].
Qed.


End RunWiring2.

(** ** The further properties at work *)

Section DemoExtras.

#[local] Existing Instance Demo.types.

(** X3 at work: with the test switch on, the default options make no
    authentication call. *)
Lemma Config_without_auth_witness :
  app.DisableAuthForTesting Demo.options_no_auth = true ∧
  ∀ recv servingInfo err,
    EvAuthenticationApplyTo recv servingInfo err
      ∉ trace (@app.Config Demo.types (Demo.collaborators Demo.no_faults)
                 Demo.options_no_auth (Demo.heap Demo.no_faults)).
Proof.
  assert (Hoff : app.DisableAuthForTesting Demo.options_no_auth = true)
    by reflexivity.
  split; [exact Hoff |].
  destruct (@Config_without_auth Demo.types (Demo.collaborators Demo.no_faults)
              Demo.options_no_auth (Demo.heap Demo.no_faults) Hoff)
    as (_ & _ & Hno & _).
  exact Hno.
Defined.

(** X4 at work: the configuration [Config] returns when nothing fails
    has no provider. *)
Lemma Config_result_shape_witness :
  (result (Demo.config Demo.no_faults)).1 = Some Demo.assembled_config ∧
  apiserver.ProviderConfig_ Demo.assembled_config =
    {| apiserver.Node := None; apiserver.Pod := None |}.
Proof.
  assert (Hc : (result (Demo.config Demo.no_faults)).1 = Some Demo.assembled_config)
    by reflexivity.
  split; [exact Hc |].
  destruct (@Config_result_shape Demo.types (Demo.collaborators Demo.no_faults)
              (Demo.options Demo.no_faults) (Demo.heap Demo.no_faults)
              Demo.assembled_config Hc)
    as (Hprov & _).
  exact Hprov.
Defined.

(** X5 at work: the error of [SecureServing.ApplyTo] that [Config]
    returns is what [Run] returns. *)
Lemma Run_returns_Config_error_witness :
  result (Demo.config Demo.serving_fails) =
    (None, Some (LibErr "no serving certificate")) ∧
  Demo.run Demo.serving_fails =
    (app.Returns (Some (LibErr "no serving certificate")),
     heap_after (Demo.config Demo.serving_fails),
     trace (Demo.config Demo.serving_fails)).
Proof.
  assert (Hcfg : result (Demo.config Demo.serving_fails) =
                 (None, Some (LibErr "no serving certificate")))
    by reflexivity.
  split; [exact Hcfg |].
  exact (@Run_returns_Config_error Demo.types
           (Demo.collaborators Demo.serving_fails)
           (Demo.options Demo.serving_fails) "stop" (Demo.heap Demo.serving_fails)
           None (LibErr "no serving certificate") Hcfg).
Defined.

End DemoExtras.
